(** * The OVH embedding adapter: batching, reassembly and failure handling

    A shallow embedding of [get_embeddings] (src/server.py), the single
    request handler of the adapter, together with the properties its
    specification states about it.

    Python values are modelled as the JSON values the handler can see.
    Strings are sequences of Unicode code points.  The upstream provider is
    an oracle threaded through the handler as explicit state; the handler
    returns, next to its response, the calls it issued, in order and each
    with its outcome, so that statements about "which calls were issued"
    can be written down.  Exceptions are values of an error monad; the
    [try]/[except Exception] of the handler is the only place where they
    are caught.

    The two [print] calls of the handler are logging and are not
    modelled. *)

From Stdlib Require Import String Ascii DecimalString.
From Stdlib Require Import List ZArith NArith Arith Lia Bool.
Import ListNotations.

Set Implicit Arguments.

(** ** Python strings *)

(** A Python [str]: a sequence of code points. *)
Definition pystr := list N.

(** String literals of the source, which are all ASCII. *)
Definition lit (s : string) : pystr :=
  map N_of_ascii (list_ascii_of_string s).

(** [str(z)] for a Python [int]. *)
Definition str_int (z : Z) : pystr :=
  lit (NilZero.string_of_int (Z.to_int z)).

(** [c.isspace()] as used by [str.split()] without arguments: the ASCII
    table of CPython (TAB..CR, FS..US, SPACE) and the Unicode white space
    characters beyond it. *)
Definition py_isspace (c : N) : bool :=
  ((9 <=? c) && (c <=? 13) || (28 <=? c) && (c <=? 32)
   || (c =? 133) || (c =? 160) || (c =? 5760)
   || (8192 <=? c) && (c <=? 8202)
   || (c =? 8232) || (c =? 8233) || (c =? 8239) || (c =? 8287)
   || (c =? 12288))%N.

(** [s.split()]: the maximal runs of non white space characters, in
    order.  [cur] is the run being read, reversed. *)
Fixpoint split_from (s : pystr) (cur : pystr) : list pystr :=
  match s with
  | [] => match cur with [] => [] | _ => [rev cur] end
  | c :: s' =>
      if py_isspace c then
        match cur with
        | [] => split_from s' []
        | _ => rev cur :: split_from s' []
        end
      else split_from s' (c :: cur)
  end.

Definition py_split (s : pystr) : list pystr := split_from s [].

(** [sep.join(parts)] *)
Fixpoint py_join (sep : pystr) (parts : list pystr) : pystr :=
  match parts with
  | [] => []
  | [p] => p
  | p :: ps => p ++ sep ++ py_join sep ps
  end.

(** [sub in s] *)
Definition contains (s sub : pystr) : Prop :=
  exists pre post, s = pre ++ sub ++ post.

(** ** Exceptions *)

(** An exception is known to the handler only through [str(e)]. *)
Record exn := Exn { str_exn : pystr }.

Inductive result (A : Type) :=
| Ok (a : A)
| Raise (e : exn).
Arguments Ok {A} a.
Arguments Raise {A} e.

Definition bind {A B} (m : result A) (k : A -> result B) : result B :=
  match m with
  | Ok a => k a
  | Raise e => Raise e
  end.

Section Adapter.

(** Python floats are opaque to the handler: it only passes them through
    and, at most, prints them.  The same holds for [repr] of a string,
    which is used when a container is printed. *)
Variable float : Type.
Variable repr_float : float -> pystr.
Variable repr_str : pystr -> pystr.

(** ** Values *)

(** What [json.loads] can produce.  A [dict] keeps insertion order, which
    both [str] and iteration observe, hence the association list. *)
#[warnings="-register-all"]
Inductive value :=
| VNone
| VBool (b : bool)
| VInt (z : Z)
| VFloat (f : float)
| VStr (s : pystr)
| VList (l : list value)
| VDict (d : list (pystr * value)).

(** [type(v).__name__] *)
Definition type_name (v : value) : pystr :=
  match v with
  | VNone => lit "NoneType"
  | VBool _ => lit "bool"
  | VInt _ => lit "int"
  | VFloat _ => lit "float"
  | VStr _ => lit "str"
  | VList _ => lit "list"
  | VDict _ => lit "dict"
  end.

(** [repr(v)] *)
Fixpoint py_repr (v : value) : pystr :=
  match v with
  | VNone => lit "None"
  | VBool true => lit "True"
  | VBool false => lit "False"
  | VInt z => str_int z
  | VFloat f => repr_float f
  | VStr s => repr_str s
  | VList l => lit "[" ++ py_join (lit ", ") (map py_repr l) ++ lit "]"
  | VDict d =>
      lit "{"
      ++ py_join (lit ", ")
           (map (fun kv => repr_str (fst kv) ++ lit ": " ++ py_repr (snd kv)) d)
      ++ lit "}"
  end.

(** [str(v)]: differs from [repr] on strings only. *)
Definition py_str (v : value) : pystr :=
  match v with
  | VStr s => s
  | _ => py_repr v
  end.

(** [d.get(key, default)] on the items of a dict. *)
Fixpoint dict_lookup (key : pystr) (d : list (pystr * value)) : option value :=
  match d with
  | [] => None
  | (k, v) :: d' =>
      if list_eq_dec N.eq_dec k key then Some v else dict_lookup key d'
  end.

(** [data.get("input", "")], line 18.  Anything but a dict has no [get]. *)
Definition get_input (data : value) : result value :=
  match data with
  | VDict d =>
      Ok (match dict_lookup (lit "input") d with
          | Some v => v
          | None => VStr (lit "")
          end)
  | _ =>
      Raise (Exn (lit "'" ++ type_name data
                  ++ lit "' object has no attribute 'get'"))
  end.

(** Lines 21-24: [isinstance(input_data, list)] selects the first branch. *)
Definition normalize (input_data : value) : list value :=
  match input_data with
  | VList l => l
  | _ => [input_data]
  end.

(** The items [list.extend] takes from its argument, line 46: the
    elements of a list, the keys of a dict, the characters of a string;
    nothing else is iterable. *)
Definition iter_items (v : value) : result (list value) :=
  match v with
  | VList l => Ok l
  | VDict d => Ok (map (fun kv => VStr (fst kv)) d)
  | VStr s => Ok (map (fun c => VStr [c]) s)
  | _ =>
      Raise (Exn (lit "'" ++ type_name v ++ lit "' object is not iterable"))
  end.

(** ** Slices, ranges, enumeration *)

(** [l[i:j]] for [0 <= i <= j]. *)
Definition py_slice {A} (l : list A) (i j : nat) : list A :=
  firstn (j - i) (skipn i l).

(** [count] values from [start] in steps of [step]. *)
Fixpoint range_count (count start step : nat) : list nat :=
  match count with
  | O => []
  | S c => start :: range_count c (start + step) step
  end.

(** [range(start, stop, step)] for a positive step: it has
    [ceil((stop - start) / step)] elements. *)
Definition py_range (start stop step : nat) : list nat :=
  range_count ((stop - start + step - 1) / step) start step.

(** [enumerate(l)], counting from [k]. *)
Fixpoint enumerate_from {A} (k : nat) (l : list A) : list (nat * A) :=
  match l with
  | [] => []
  | x :: l' => (k, x) :: enumerate_from (S k) l'
  end.

Definition enumerate {A} (l : list A) : list (nat * A) := enumerate_from 0 l.

(** [sum(...)] over naturals. *)
Definition py_sum (l : list nat) : nat := fold_right Nat.add 0 l.

(** ** The upstream provider *)

(** What [requests.post] returns: [json] is the outcome of the method
    [response.json()], which raises when the body is not JSON. *)
Record upstream_response := {
  status_code : Z;
  text : pystr;
  json : result value
}.

(** The provider, as seen from the handler: posting a batch either
    raises (the call could not be completed) or returns a response, and
    moves the world on. *)
Variable World : Type.
Variable post : list value -> World -> result upstream_response * World.

(** One issued call: what was sent and what came back. *)
Record call := {
  payload : list value;
  outcome : result upstream_response
}.

(** ** The handler *)

Definition MAX_BATCH_SIZE : nat := 10.

Record http_response := {
  http_status : Z;
  http_body : value
}.

(** [jsonify(obj)] and [jsonify(obj), code]. *)
Definition jsonify (obj : value) : http_response :=
  {| http_status := 200; http_body := obj |}.
Definition jsonify_with (obj : value) (code : Z) : http_response :=
  {| http_status := code; http_body := obj |}.

(** The f-string of line 49. *)
Definition batch_error_message (i : nat) (response : upstream_response) : pystr :=
  lit "Error from OVH API (batch starting at index "
  ++ str_int (Z.of_nat i) ++ lit "): "
  ++ str_int (status_code response) ++ lit ", response: "
  ++ text response.

Definition error_body (message : pystr) : value :=
  VDict [(lit "error", VStr message)].

(** How one iteration of the loop of lines 33-50 ends. *)
Inductive flow :=
| Continue (all_embeddings : list value)
| Return (r : http_response)
| Throw (e : exn).

(** Lines 34-50, one iteration at index [i]. *)
Definition loop_body (texts : list value) (i : nat)
    (all_embeddings : list value) (w : World) : flow * call * World :=
  let batch := py_slice texts i (i + MAX_BATCH_SIZE) in
  let (r, w') := post batch w in
  let c := {| payload := batch; outcome := r |} in
  match r with
  | Raise e => (Throw e, c, w')
  | Ok response =>
      if (status_code response =? 200)%Z then
        match bind (json response) iter_items with
        | Ok items => (Continue (all_embeddings ++ items), c, w')
        | Raise e => (Throw e, c, w')
        end
      else
        (Return (jsonify_with (error_body (batch_error_message i response)) 500),
         c, w')
  end.

(** Lines 33-50: the loop over the given indices, with the calls it
    issued, in order. *)
Fixpoint for_loop (indices : list nat) (texts : list value)
    (all_embeddings : list value) (w : World) : flow * list call * World :=
  match indices with
  | [] => (Continue all_embeddings, [], w)
  | i :: rest =>
      match loop_body texts i all_embeddings w with
      | (Continue all_embeddings', c, w') =>
          let '(f, cs, w'') := for_loop rest texts all_embeddings' w' in
          (f, c :: cs, w'')
      | (f, c, w') => (f, [c], w')
      end
  end.

(** Lines 53-59. *)
Definition embedding_result (ie : nat * value) : value :=
  VDict [(lit "embedding", snd ie);
         (lit "index", VInt (Z.of_nat (fst ie)));
         (lit "object", VStr (lit "embedding"))].

Definition embeddings_results (all_embeddings : list value) : list value :=
  map embedding_result (enumerate all_embeddings).

(** Lines 66 and 67: the same expression twice. *)
Definition token_count (texts : list value) : nat :=
  py_sum (map (fun t => length (py_split (py_str t))) texts).

(** Lines 61-69. *)
Definition success_body (all_embeddings texts : list value) : value :=
  VDict [(lit "data", VList (embeddings_results all_embeddings));
         (lit "model", VStr (lit "ovh-embeddings"));
         (lit "object", VStr (lit "list"));
         (lit "usage",
          VDict [(lit "prompt_tokens", VInt (Z.of_nat (token_count texts)));
                 (lit "total_tokens", VInt (Z.of_nat (token_count texts)))])].

(** The incoming request: [request.json] raises when the body cannot be
    read as JSON. *)
Record request := {
  request_json : result value
}.

(** Lines 17-24: the normalized input sequence of a request. *)
Definition texts_of (rq : request) : result (list value) :=
  bind (request_json rq) (fun data =>
  bind (get_input data) (fun input_data =>
  Ok (normalize input_data))).

(** Lines 17-69, the body of the [try]. *)
Definition try_block (rq : request) (w : World)
    : result http_response * list call * World :=
  match texts_of rq with
  | Raise e => (Raise e, [], w)
  | Ok texts =>
      match for_loop (py_range 0 (length texts) MAX_BATCH_SIZE) texts [] w with
      | (Continue all_embeddings, cs, w') =>
          (Ok (jsonify (success_body all_embeddings texts)), cs, w')
      | (Return r, cs, w') => (Ok r, cs, w')
      | (Throw e, cs, w') => (Raise e, cs, w')
      end
  end.

(** Lines 14-71: the handler, with the [except Exception] of line 70. *)
Definition get_embeddings (rq : request) (w : World)
    : http_response * list call * World :=
  match try_block rq w with
  | (Ok r, cs, w') => (r, cs, w')
  | (Raise e, cs, w') =>
      (jsonify_with (error_body (str_exn e)) 500, cs, w')
  end.

(** The response, and the calls issued, of one request. *)
Definition response_of (rq : request) (w : World) : http_response :=
  fst (fst (get_embeddings rq w)).
Definition calls_of (rq : request) (w : World) : list call :=
  snd (fst (get_embeddings rq w)).

(** ** Vocabulary of the specification *)

(** The batches of a normalized input sequence: the slices the loop of
    lines 33-34 takes, in the order it takes them. *)
Definition batches (texts : list value) : list (list value) :=
  map (fun i => py_slice texts i (i + MAX_BATCH_SIZE))
      (py_range 0 (length texts) MAX_BATCH_SIZE).

(** The items the loop appends to the accumulator for an outcome, if it
    appends any. *)
Definition accepted (o : result upstream_response) : option (list value) :=
  match o with
  | Raise _ => None
  | Ok response =>
      if (status_code response =? 200)%Z then
        match bind (json response) iter_items with
        | Ok items => Some items
        | Raise _ => None
        end
      else None
  end.

Definition vectors_of (c : call) : list value :=
  match accepted (outcome c) with
  | Some items => items
  | None => []
  end.

(** A call succeeded and returned, for each submitted text and in
    submission order, a vector that [R] relates to the text. *)
Definition call_ok (R : value -> value -> Prop) (c : call) : Prop :=
  exists response vectors,
    outcome c = Ok response
    /\ status_code response = 200%Z
    /\ json response = Ok (VList vectors)
    /\ Forall2 R (payload c) vectors.

(** A field of a JSON object. *)
Definition field (key : string) (v : value) : option value :=
  match v with
  | VDict d => dict_lookup (lit key) d
  | _ => None
  end.

(** The [data] array of a response body, empty when there is none. *)
Definition data_of (r : http_response) : list value :=
  match field "data" (http_body r) with
  | Some (VList l) => l
  | _ => []
  end.

(** What the loop does with the outcome of the call at index [i]. *)
Definition decide_flow (i : nat) (all_embeddings : list value)
    (o : result upstream_response) : flow :=
  match o with
  | Raise e => Throw e
  | Ok response =>
      if (status_code response =? 200)%Z then
        match bind (json response) iter_items with
        | Ok items => Continue (all_embeddings ++ items)
        | Raise e => Throw e
        end
      else
        Return (jsonify_with (error_body (batch_error_message i response)) 500)
  end.

(** A call whose items the loop appended. *)
Definition was_accepted (c : call) : Prop := accepted (outcome c) <> None.

(** The three ways a request with normalized input [texts] can end. *)
Inductive ending (texts : list value) (r : http_response) (cs : list call)
  : Prop :=
| Succeeded :
    Forall was_accepted cs ->
    map payload cs = batches texts ->
    r = jsonify (success_body (concat (map vectors_of cs)) texts) ->
    ending texts r cs
| Rejected cs0 c resp :
    cs = cs0 ++ [c] ->
    Forall was_accepted cs0 ->
    outcome c = Ok resp ->
    status_code resp <> 200%Z ->
    r = jsonify_with
          (error_body
             (batch_error_message (MAX_BATCH_SIZE * length cs0) resp)) 500 ->
    ending texts r cs
| Crashed cs0 c e :
    cs = cs0 ++ [c] ->
    Forall was_accepted cs0 ->
    accepted (outcome c) = None ->
    outcome c = Raise e
    \/ (exists resp,
          outcome c = Ok resp /\ status_code resp = 200%Z
          /\ bind (json resp) iter_items = Raise e) ->
    r = jsonify_with (error_body (str_exn e)) 500 ->
    ending texts r cs.

(** Posting the given batches one after the other, each on the world the
    previous one left: the outcomes, in order, and the last world. *)
Fixpoint post_all (payloads : list (list value)) (w : World)
    : list (result upstream_response) * World :=
  match payloads with
  | [] => ([], w)
  | batch :: rest =>
      let (r, w1) := post batch w in
      let (rs, w2) := post_all rest w1 in
      (r :: rs, w2)
  end.

(** The keys of a response body, in order. *)
Definition keys_of (v : value) : list pystr :=
  match v with
  | VDict d => map fst d
  | _ => []
  end.

End Adapter.

Arguments VNone {float}.
Arguments VBool {float} b.
Arguments VInt {float} z.
Arguments VStr {float} s.
Arguments Throw {float} e.
Arguments error_body {float} message.
Arguments was_accepted {float} c.

(** * Sample requests and upstream providers

    The floats of the samples are integral and small, [z] standing for
    the float [z.0]; their strings are printable ASCII without quotes or
    backslashes, for which [repr] only adds the quotes.  The world of a
    sample provider is the number of calls it has served. *)

Definition sample_repr_float (z : Z) : pystr := str_int z ++ lit ".0".
Definition sample_repr_str (s : pystr) : pystr := lit "'" ++ s ++ lit "'".

(** The vector a sample provider computes for a text: the code points of
    its string form, which tells any two strings apart. *)
Definition sample_vector (t : value Z) : value Z :=
  VList (map (fun c => VFloat (Z.of_N c))
             (py_str sample_repr_float sample_repr_str t)).

(** [v] is the vector of the text [t]. *)
Definition vector_of_text (t v : value Z) : Prop := v = sample_vector t.

(** A response with one vector per text, in order.  The raw text of
    the body, which the handler reads only on failure, is elided. *)
Definition vectors_response (status : Z) (batch : list (value Z))
    : upstream_response Z :=
  {| status_code := status;
     text := lit "[...]";
     json := Ok (VList (map sample_vector batch)) |}.

(** A provider that always answers 200 with the right vectors. *)
Definition post_echo (batch : list (value Z)) (served : nat)
    : result (upstream_response Z) * nat :=
  (Ok (vectors_response 200 batch), S served).

Definition busy_response : upstream_response Z :=
  {| status_code := 503;
     text := lit "busy";
     json := Raise (Exn (lit "Expecting value: line 1 column 1 (char 0)")) |}.

(** A provider whose call number [k], counting from 0, answers 503. *)
Definition post_busy_at (k : nat) (batch : list (value Z)) (served : nat)
    : result (upstream_response Z) * nat :=
  (if Nat.eqb served k then Ok busy_response
   else Ok (vectors_response 200 batch), S served).

(** A provider that answers 201 Created, with the right vectors. *)
Definition post_created (batch : list (value Z)) (served : nat)
    : result (upstream_response Z) * nat :=
  (Ok (vectors_response 201 batch), S served).

(** A provider whose call number [k] cannot be completed. *)
Definition post_unreachable_at (k : nat) (batch : list (value Z))
    (served : nat) : result (upstream_response Z) * nat :=
  (if Nat.eqb served k then Raise (Exn (lit "Connection refused"))
   else Ok (vectors_response 200 batch), S served).

(** A provider that returns two vectors whatever it is sent. *)
Definition post_two_vectors (batch : list (value Z)) (served : nat)
    : result (upstream_response Z) * nat :=
  (Ok {| status_code := 200;
         text := lit "[...]";
         json := Ok (VList [VList [VFloat 1%Z]; VList [VFloat 2%Z]]) |},
   S served).

(** A provider that answers 200 with the given JSON value as body,
    whatever it is sent. *)
Definition post_body (body : value Z) (batch : list (value Z))
    (served : nat) : result (upstream_response Z) * nat :=
  (Ok {| status_code := 200; text := lit "..."; json := Ok body |},
   S served).

(** The request whose body is the JSON object with [input] set to [v]. *)
Definition request_with_input (v : value Z) : request Z :=
  {| request_json := Ok (VDict [(lit "input", v)]) |}.

(** The texts "0", "1", ..., "n-1". *)
Definition numbered_texts (n : nat) : list (value Z) :=
  map (fun k => VStr (str_int (Z.of_nat k))) (seq 0 n).

Definition sample_handler
    (post : list (value Z) -> nat -> result (upstream_response Z) * nat)
    (rq : request Z) : http_response Z :=
  response_of sample_repr_float sample_repr_str post rq 0.

Definition sample_calls
    (post : list (value Z) -> nat -> result (upstream_response Z) * nat)
    (rq : request Z) : list (call Z) :=
  calls_of sample_repr_float sample_repr_str post rq 0.

(** * Properties *)

(** ** Ranges and slices *)

Lemma length_range_count (count start step : nat) :
  length (range_count count start step) = count.
Proof.
  revert start; induction count as [|c IH]; intros start; simpl; auto.
Qed.

Lemma nth_range_count (count step k start d : nat) :
  k < count -> nth k (range_count count start step) d = start + k * step.
Proof.
  revert k start; induction count as [|c IH]; intros k start Hk; [lia|].
  destruct k as [|k]; simpl; [lia|].
  rewrite IH by lia. lia.
Qed.

(** The number of batches is the ceiling of [n / 10]. *)
Lemma ceil_div_10 (n : nat) :
  let b := (n - 0 + MAX_BATCH_SIZE - 1) / MAX_BATCH_SIZE in
  n <= 10 * b < n + 10.
Proof.
  intros b; subst b; unfold MAX_BATCH_SIZE.
  pose proof (Nat.div_mod_eq (n - 0 + 10 - 1) 10) as E.
  pose proof (Nat.mod_upper_bound (n - 0 + 10 - 1) 10) as B.
  lia.
Qed.

Lemma py_sum_lengths {A} (ls : list (list A)) :
  py_sum (map (@length A) ls) = length (concat ls).
Proof.
  induction ls as [|l ls IH]; simpl; [reflexivity|].
  rewrite length_app, <- IH. reflexivity.
Qed.

Lemma py_slice_app {A} (l : list A) (i : nat) :
  py_slice l i (i + MAX_BATCH_SIZE) ++ skipn (i + MAX_BATCH_SIZE) l = skipn i l.
Proof.
  unfold py_slice.
  replace (i + MAX_BATCH_SIZE - i) with MAX_BATCH_SIZE by lia.
  rewrite (Nat.add_comm i), <- skipn_skipn.
  apply firstn_skipn.
Qed.

Lemma length_py_slice {A} (l : list A) (i : nat) :
  length (py_slice l i (i + MAX_BATCH_SIZE))
  = Nat.min (i + MAX_BATCH_SIZE) (length l) - i.
Proof.
  unfold py_slice. rewrite length_firstn, length_skipn. lia.
Qed.

Lemma nth_py_slice {A} (l : list A) (i j : nat) (d : A) :
  j < length (py_slice l i (i + MAX_BATCH_SIZE)) ->
  nth j (py_slice l i (i + MAX_BATCH_SIZE)) d = nth (i + j) l d.
Proof.
  intros Hj. unfold py_slice in *.
  rewrite length_firstn in Hj.
  rewrite nth_firstn.
  destruct (Nat.ltb_spec j (i + MAX_BATCH_SIZE - i)); [|lia].
  apply nth_skipn.
Qed.

(** Slicing at the indices of a range that reaches the end of the list
    cuts the rest of the list into consecutive pieces. *)
Lemma concat_slices {A} (l : list A) (count start : nat) :
  length l <= start + count * MAX_BATCH_SIZE ->
  concat (map (fun i => py_slice l i (i + MAX_BATCH_SIZE))
              (range_count count start MAX_BATCH_SIZE))
  = skipn start l.
Proof.
  revert start; induction count as [|c IH]; intros start Hlen; simpl.
  - symmetry. apply skipn_all2. lia.
  - rewrite IH by lia. apply py_slice_app.
Qed.

Section Properties.

Variable float : Type.
Variable repr_float : float -> pystr.
Variable repr_str : pystr -> pystr.
Variable World : Type.
Variable post :
  list (value float) -> World -> result (upstream_response float) * World.

Implicit Types (texts all_embeddings : list (value float)).
Implicit Types (w : World) (c : call float) (cs : list (call float)).
Implicit Types (f : flow float) (e : exn).

(** ** One iteration *)

Lemma loop_body_eq texts i all_embeddings w :
  loop_body post texts i all_embeddings w
  = (decide_flow i all_embeddings
       (fst (post (py_slice texts i (i + MAX_BATCH_SIZE)) w)),
     {| payload := py_slice texts i (i + MAX_BATCH_SIZE);
        outcome := fst (post (py_slice texts i (i + MAX_BATCH_SIZE)) w) |},
     snd (post (py_slice texts i (i + MAX_BATCH_SIZE)) w)).
Proof.
  unfold loop_body, decide_flow.
  destruct (post _ w) as [[response|e] w']; simpl; [|reflexivity].
  destruct (status_code response =? 200)%Z; [|reflexivity].
  destruct (bind _ _); reflexivity.
Qed.

Lemma decide_flow_continue i all_embeddings o acc' :
  decide_flow i all_embeddings o = Continue acc' ->
  exists items, accepted o = Some items /\ acc' = all_embeddings ++ items.
Proof.
  unfold decide_flow, accepted. destruct o as [response|e]; [|discriminate].
  destruct (status_code response =? 200)%Z; [|discriminate].
  destruct (bind _ _) as [items|e]; [|discriminate].
  intros [= <-]. eauto.
Qed.

Lemma decide_flow_return i all_embeddings o r :
  decide_flow i all_embeddings o = Return r ->
  exists response,
    o = Ok response /\ status_code response <> 200%Z
    /\ r = jsonify_with (error_body (batch_error_message i response)) 500.
Proof.
  unfold decide_flow. destruct o as [response|e]; [|discriminate].
  destruct (Z.eqb_spec (status_code response) 200); [|intros [= <-]; eauto].
  destruct (bind _ _); discriminate.
Qed.

Lemma decide_flow_throw i all_embeddings o e :
  decide_flow i all_embeddings o = Throw e ->
  o = Raise e
  \/ exists response,
       o = Ok response /\ status_code response = 200%Z
       /\ bind (json response) (@iter_items float) = Raise e.
Proof.
  unfold decide_flow. destruct o as [response|e']; [|intros [= <-]; auto].
  destruct (Z.eqb_spec (status_code response) 200); [|discriminate].
  destruct (bind _ _) as [items|e'] eqn:E; [discriminate|].
  intros [= <-]. eauto.
Qed.

Lemma decide_flow_accepted i all_embeddings o items :
  accepted o = Some items ->
  decide_flow i all_embeddings o = Continue (all_embeddings ++ items).
Proof.
  unfold accepted, decide_flow. destruct o as [resp|e]; [|discriminate].
  destruct (status_code resp =? 200)%Z; [|discriminate].
  destruct (bind _ _); [|discriminate].
  intros [= ->]. reflexivity.
Qed.

(** A call that stopped the loop contributed nothing. *)
Lemma accepted_none_of_stop i all_embeddings o :
  (forall acc', decide_flow i all_embeddings o <> Continue acc') ->
  accepted o = None.
Proof.
  unfold decide_flow, accepted. destruct o as [response|e]; [|reflexivity].
  destruct (status_code response =? 200)%Z; [|reflexivity].
  destruct (bind _ _) as [items|e]; [|reflexivity].
  intros H. exfalso. eapply H. reflexivity.
Qed.

(** ** The loop *)

(** The shape of a run of the loop over [indices].  The calls issued are
    the slices at a prefix of the indices.  When the loop runs to its
    end, there is one call per index, each was accepted, and the
    accumulator received their items in order.  When it stops early, the
    last call is the one that stopped it and all calls before it were
    accepted. *)
Lemma for_loop_shape indices texts : forall all_embeddings w f cs w',
  for_loop post indices texts all_embeddings w = (f, cs, w') ->
  map (@payload float) cs
  = map (fun i => py_slice texts i (i + MAX_BATCH_SIZE))
        (firstn (length cs) indices)
  /\ match f with
     | Continue acc' =>
         length cs = length indices
         /\ Forall was_accepted cs
         /\ acc' = all_embeddings ++ concat (map (@vectors_of float) cs)
     | Return r =>
         exists cs0 c response,
           cs = cs0 ++ [c] /\ Forall was_accepted cs0
           /\ outcome c = Ok response /\ status_code response <> 200%Z
           /\ r = jsonify_with
                    (error_body
                       (batch_error_message (nth (length cs0) indices 0)
                          response)) 500
     | Throw e =>
         exists cs0 c,
           cs = cs0 ++ [c] /\ Forall was_accepted cs0
           /\ accepted (outcome c) = None
           /\ (outcome c = Raise e
               \/ exists response,
                    outcome c = Ok response
                    /\ status_code response = 200%Z
                    /\ bind (json response) (@iter_items float) = Raise e)
     end.
Proof.
  induction indices as [|i rest IH]; intros acc w f cs w' H.
  - simpl in H. injection H as <- <- <-. simpl.
    rewrite app_nil_r. auto.
  - simpl in H. rewrite loop_body_eq in H.
    set (b := py_slice texts i (i + MAX_BATCH_SIZE)) in *.
    destruct (decide_flow i acc (fst (post b w))) as [acc1|r|e] eqn:D.
    + destruct (for_loop post rest texts acc1 (snd (post b w)))
        as [[f1 cs1] w1] eqn:L.
      injection H as <- <- <-.
      destruct (IH _ _ _ _ _ L) as [Hp Hf].
      destruct (decide_flow_continue _ _ _ D) as (items & Ha & ->).
      assert (Hacc : was_accepted {| payload := b; outcome := fst (post b w) |})
        by (unfold was_accepted; simpl; congruence).
      split; [simpl; f_equal; exact Hp|].
      destruct f1 as [acc'|r|e].
      * destruct Hf as (Hl & HF & ->). cbn [length map concat].
        repeat split; [lia|constructor; assumption|].
        rewrite <- app_assoc. do 2 f_equal.
        unfold vectors_of; cbn [outcome]. rewrite Ha. reflexivity.
      * destruct Hf as (cs0 & c & response & -> & HF & Ho & Hs & ->).
        exists ({| payload := b; outcome := fst (post b w) |} :: cs0), c, response.
        repeat split; auto.
      * destruct Hf as (cs0 & c & -> & HF & Hn & Ho).
        exists ({| payload := b; outcome := fst (post b w) |} :: cs0), c.
        repeat split; auto.
    + injection H as <- <- <-. split; [reflexivity|].
      destruct (decide_flow_return _ _ _ D) as (response & Ho & Hs & ->).
      exists [], {| payload := b; outcome := fst (post b w) |}, response.
      repeat split; auto.
    + injection H as <- <- <-. split; [reflexivity|].
      exists [], {| payload := b; outcome := fst (post b w) |}.
      cbn [outcome]. repeat split; auto.
      * apply (accepted_none_of_stop i acc). intros acc'. cbn [outcome].
        rewrite D. discriminate.
      * apply (decide_flow_throw _ _ _ D).
Qed.

(** The calls recorded are those made: posting the payloads again, one
    after the other, gives the outcomes recorded and the world reached. *)
Lemma for_loop_replay indices texts : forall all_embeddings w f cs w',
  for_loop post indices texts all_embeddings w = (f, cs, w') ->
  post_all post (map (@payload float) cs) w = (map (@outcome float) cs, w').
Proof.
  induction indices as [|i rest IH]; intros acc w f cs w' H.
  - simpl in H. injection H as <- <- <-. reflexivity.
  - simpl in H. rewrite loop_body_eq in H.
    set (b := py_slice texts i (i + MAX_BATCH_SIZE)) in *.
    destruct (decide_flow i acc (fst (post b w))) as [acc1|r|e].
    + destruct (for_loop post rest texts acc1 (snd (post b w)))
        as [[f1 cs1] w1] eqn:L.
      injection H as <- <- <-. cbn [map payload outcome post_all].
      destruct (post b w) as [o w0]. cbn [fst snd] in *.
      rewrite (IH _ _ _ _ _ L). reflexivity.
    + injection H as <- <- <-. cbn [map payload outcome post_all].
      destruct (post b w) as [o w0]. reflexivity.
    + injection H as <- <- <-. cbn [map payload outcome post_all].
      destruct (post b w) as [o w0]. reflexivity.
Qed.

(** ** The handler, given its normalized input *)

Local Abbreviation handler := (get_embeddings repr_float repr_str post).
Local Abbreviation response := (response_of repr_float repr_str post).
Local Abbreviation calls := (calls_of repr_float repr_str post).
Local Abbreviation success := (success_body repr_float repr_str).

Lemma handler_no_texts rq w e :
  texts_of rq = Raise e ->
  handler rq w = (jsonify_with (error_body (str_exn e)) 500, [], w).
Proof.
  intros H. unfold get_embeddings, try_block. rewrite H. reflexivity.
Qed.

Lemma handler_texts rq w texts :
  texts_of rq = Ok texts ->
  handler rq w
  = match for_loop post (py_range 0 (length texts) MAX_BATCH_SIZE) texts [] w
    with
    | (Continue acc, cs, w') => (jsonify (success acc texts), cs, w')
    | (Return r, cs, w') => (r, cs, w')
    | (Throw e, cs, w') => (jsonify_with (error_body (str_exn e)) 500, cs, w')
    end.
Proof.
  intros H. unfold get_embeddings, try_block. rewrite H.
  destruct (for_loop _ _ _ _ _) as [[[acc|r|e] cs] w']; reflexivity.
Qed.

Lemma length_batches texts :
  length (batches texts) = (length texts - 0 + MAX_BATCH_SIZE - 1) / MAX_BATCH_SIZE.
Proof.
  unfold batches, py_range. rewrite length_map, length_range_count. reflexivity.
Qed.

Lemma concat_batches texts : concat (batches texts) = texts.
Proof.
  unfold batches, py_range. rewrite concat_slices; [reflexivity|].
  pose proof (ceil_div_10 (length texts)) as H. cbv zeta in H.
  unfold MAX_BATCH_SIZE in *. lia.
Qed.

Lemma handler_ending rq w texts :
  texts_of rq = Ok texts ->
  map (@payload float) (calls rq w)
  = firstn (length (calls rq w)) (batches texts)
  /\ ending repr_float repr_str texts (response rq w) (calls rq w).
Proof.
  intros H. unfold response_of, calls_of. rewrite (handler_texts _ w H).
  destruct (for_loop _ _ _ _ _) as [[f cs] w'] eqn:L.
  destruct (for_loop_shape _ _ _ _ L) as [Hp Hf].
  rewrite <- firstn_map in Hp. fold (batches texts) in Hp.
  assert (Hlen : length cs <= length (batches texts)).
  { rewrite <- (length_map (@payload float) cs), Hp, length_firstn. lia. }
  destruct f as [acc|r|e]; simpl; (split; [exact Hp|]).
  - destruct Hf as (Hl & HF & ->). apply Succeeded; auto.
    rewrite Hp. apply firstn_all2.
    unfold batches. rewrite length_map. lia.
  - destruct Hf as (cs0 & c & resp & -> & HF & Ho & Hs & ->).
    rewrite length_batches, length_app in Hlen. cbn [length] in Hlen.
    unfold py_range. rewrite nth_range_count by lia.
    rewrite Nat.add_0_l, Nat.mul_comm.
    eapply Rejected; eauto.
  - destruct Hf as (cs0 & c & -> & HF & Hn & Ho).
    eapply Crashed; eauto.
Qed.

Lemma handler_replay rq w :
  post_all post (map (@payload float) (calls rq w)) w
  = (map (@outcome float) (calls rq w), snd (handler rq w)).
Proof.
  unfold calls_of. destruct (texts_of rq) as [texts|e] eqn:Ht.
  - rewrite (handler_texts rq w Ht).
    destruct (for_loop _ _ _ _ _) as [[f cs] w'] eqn:L.
    pose proof (for_loop_replay _ _ _ _ L) as H.
    destruct f; exact H.
  - rewrite (handler_no_texts rq w Ht). reflexivity.
Qed.

(** A request of at most ten texts is served by one call. *)
Lemma handler_single_batch rq w texts :
  texts_of rq = Ok texts ->
  0 < length texts <= MAX_BATCH_SIZE ->
  handler rq w
  = (match decide_flow 0 [] (fst (post texts w)) with
     | Continue acc => jsonify (success acc texts)
     | Return r => r
     | Throw e => jsonify_with (error_body (str_exn e)) 500
     end,
     [{| payload := texts; outcome := fst (post texts w) |}],
     snd (post texts w)).
Proof.
  intros Ht Hn. rewrite (handler_texts rq w Ht).
  unfold MAX_BATCH_SIZE in *.
  assert (Hr : py_range 0 (length texts) 10 = [0]).
  { unfold py_range.
    replace ((length texts - 0 + 10 - 1) / 10) with 1; [reflexivity|].
    apply (Nat.div_unique _ 10 1 (length texts - 1)); lia. }
  assert (Hs : py_slice texts 0 (0 + 10) = texts).
  { unfold py_slice. simpl skipn. apply firstn_all2. lia. }
  unfold MAX_BATCH_SIZE. rewrite Hr. cbn [for_loop]. rewrite loop_body_eq.
  unfold MAX_BATCH_SIZE. rewrite Hs.
  destruct (decide_flow _ _ _); reflexivity.
Qed.

Lemma accepted_of_call_ok R c :
  call_ok R c ->
  exists vectors,
    accepted (outcome c) = Some vectors /\ Forall2 R (payload c) vectors.
Proof.
  intros (resp & vectors & Ho & Hs & Hj & HR). exists vectors. split; [|assumption].
  unfold accepted. rewrite Ho, Hs, Hj. reflexivity.
Qed.

Lemma not_accepted_of_status c resp :
  outcome c = Ok resp -> status_code resp <> 200%Z -> accepted (outcome c) = None.
Proof.
  intros Ho Hs. unfold accepted. rewrite Ho.
  destruct (Z.eqb_spec (status_code resp) 200); [contradiction|reflexivity].
Qed.

Lemma not_accepted_of_raise c e :
  outcome c = Raise e -> accepted (outcome c) = None.
Proof. intros Ho. unfold accepted. rewrite Ho. reflexivity. Qed.

(** Only the last call of a request can be one that was not accepted. *)
Lemma unaccepted_is_last cs0 c' k c :
  Forall was_accepted cs0 ->
  nth_error (cs0 ++ [c']) k = Some c ->
  accepted (outcome c) = None ->
  k = length cs0 /\ c = c'.
Proof.
  intros HF Hk Hn.
  destruct (Nat.lt_ge_cases k (length cs0)) as [Hlt|Hge].
  - rewrite nth_error_app1 in Hk by assumption.
    apply nth_error_In in Hk. rewrite Forall_forall in HF.
    apply HF in Hk. contradiction.
  - rewrite nth_error_app2 in Hk by assumption.
    destruct (k - length cs0) as [|j] eqn:E; simpl in Hk.
    + injection Hk as <-. split; [lia|reflexivity].
    + destruct j; discriminate.
Qed.

Lemma status_of_ending texts r cs :
  ending repr_float repr_str texts r cs ->
  http_status r = 200%Z -> Forall was_accepted cs.
Proof.
  intros [HF _ _|cs0 c resp _ _ _ _ ->|cs0 c e _ _ _ _ ->]; simpl;
    [auto|discriminate|discriminate].
Qed.

Lemma accepted_ending texts r cs :
  ending repr_float repr_str texts r cs ->
  Forall was_accepted cs ->
  map (@payload float) cs = batches texts
  /\ r = jsonify (success (concat (map (@vectors_of float) cs)) texts).
Proof.
  intros [HF Hp Hr|cs0 c resp -> _ Ho Hs _|cs0 c e -> _ Hn _ _] HA; [auto| |];
    apply Forall_app in HA as [_ HA]; inversion_clear HA as [|? ? Hc _];
    exfalso; apply Hc.
  - eapply not_accepted_of_status; eauto.
  - assumption.
Qed.

(** The call number [k] of a request carries the slice at index [10 k]. *)
Lemma payload_of_call rq w texts k c :
  texts_of rq = Ok texts ->
  nth_error (calls rq w) k = Some c ->
  payload c
  = py_slice texts (MAX_BATCH_SIZE * k) (MAX_BATCH_SIZE * k + MAX_BATCH_SIZE).
Proof.
  intros Ht Hk. destruct (handler_ending rq w Ht) as [Hp _].
  assert (Hlt : k < length (calls rq w))
    by (apply nth_error_Some; congruence).
  assert (Hb : nth_error (batches texts) k = Some (payload c)).
  { pose proof (f_equal (fun l => nth_error l k) Hp) as Hb. cbv beta in Hb.
    rewrite nth_error_map, Hk, nth_error_firstn in Hb.
    destruct (Nat.ltb_spec k (length (calls rq w))); [|lia].
    symmetry. exact Hb. }
  assert (Hkb : k < length (batches texts))
    by (apply nth_error_Some; congruence).
  unfold batches in Hb. rewrite nth_error_map in Hb.
  rewrite length_batches in Hkb.
  rewrite (nth_error_nth' _ 0) in Hb
    by (unfold py_range; rewrite length_range_count; exact Hkb).
  unfold py_range in Hb. rewrite nth_range_count in Hb by exact Hkb.
  simpl option_map in Hb. injection Hb as <-.
  rewrite (Nat.mul_comm MAX_BATCH_SIZE k). reflexivity.
Qed.

Lemma contains_intro (pre sub suf : pystr) : contains (pre ++ sub ++ suf) sub.
Proof. exists pre, suf. reflexivity. Qed.

(** ** Reassembly *)

Lemma length_enumerate_from {A} (l : list A) k :
  length (enumerate_from k l) = length l.
Proof. revert k; induction l; intros k; simpl; auto. Qed.

Lemma length_embeddings_results all_embeddings :
  length (embeddings_results all_embeddings) = length all_embeddings.
Proof.
  unfold embeddings_results, enumerate.
  rewrite length_map. apply length_enumerate_from.
Qed.

Lemma index_fields_from all_embeddings k :
  map (field "index") (map (@embedding_result float) (enumerate_from k all_embeddings))
  = map (fun j => Some (VInt (Z.of_nat j))) (seq k (length all_embeddings)).
Proof.
  revert k; induction all_embeddings as [|x l IH]; intros k; simpl length;
    [reflexivity|].
  cbn [enumerate_from map seq]. rewrite IH. reflexivity.
Qed.

Lemma embedding_fields_from all_embeddings k :
  map (field "embedding") (map (@embedding_result float) (enumerate_from k all_embeddings))
  = map Some all_embeddings.
Proof.
  revert k; induction all_embeddings as [|x l IH]; intros k; [reflexivity|].
  cbn [enumerate_from map]. rewrite IH. reflexivity.
Qed.

Lemma data_of_success all_embeddings texts :
  data_of (jsonify (success all_embeddings texts))
  = embeddings_results all_embeddings.
Proof. reflexivity. Qed.

Lemma usage_of_success all_embeddings texts :
  field "usage" (http_body (jsonify (success all_embeddings texts)))
  = Some (VDict
            [(lit "prompt_tokens",
              VInt (Z.of_nat (token_count repr_float repr_str texts)));
             (lit "total_tokens",
              VInt (Z.of_nat (token_count repr_float repr_str texts)))]).
Proof. reflexivity. Qed.

(** What the calls of a request returned lines up with what they were
    sent. *)
Lemma vectors_related R cs :
  Forall (call_ok R) cs ->
  Forall was_accepted cs
  /\ Forall2 R (concat (map (@payload float) cs))
               (concat (map (@vectors_of float) cs)).
Proof.
  induction 1 as [|c cs Hc _ [IHa IH2]]; simpl; [split; constructor|].
  destruct (accepted_of_call_ok Hc) as (vectors & Ha & HR).
  split.
  - constructor; [unfold was_accepted; congruence|assumption].
  - apply Forall2_app; [|assumption].
    unfold vectors_of. rewrite Ha. assumption.
Qed.

(** A response with status 200 comes from a request whose input could be
    normalized. *)
Lemma texts_of_success rq w :
  http_status (response rq w) = 200%Z -> exists texts, texts_of rq = Ok texts.
Proof.
  destruct (texts_of rq) as [texts|e] eqn:Ht; [eauto|].
  unfold response_of. rewrite (handler_no_texts _ w Ht). discriminate.
Qed.

(** ** Claims *)

(** C1. For a normalized input sequence of n texts, when every upstream
    call succeeds and returns one vector per submitted text in submission
    order ([R] relates a text to a vector the upstream returned for it),
    the response is the success response, its [data] array has n entries,
    their [index] fields are 0, ..., n-1 in that order, and the embedding
    at index k is a vector returned for input text k. *)
Theorem order_preserved_across_batches
    (R : value float -> value float -> Prop) rq w texts :
  texts_of rq = Ok texts ->
  Forall (call_ok R) (calls rq w) ->
  exists vectors,
    Forall2 R texts vectors
    /\ response rq w = jsonify (success vectors texts)
    /\ http_status (response rq w) = 200%Z
    /\ length (data_of (response rq w)) = length texts
    /\ map (field "index") (data_of (response rq w))
       = map (fun k => Some (VInt (Z.of_nat k))) (seq 0 (length texts))
    /\ map (field "embedding") (data_of (response rq w)) = map Some vectors.
Proof.
  intros Ht Hok.
  destruct (handler_ending rq w Ht) as [_ He].
  destruct (vectors_related Hok) as [Ha HR].
  destruct (accepted_ending He Ha) as [Hp Hr].
  rewrite Hp, concat_batches in HR.
  exists (concat (map (@vectors_of float) (calls rq w))).
  pose proof (Forall2_length HR) as Hlen.
  rewrite Hr, data_of_success. unfold embeddings_results, enumerate.
  rewrite index_fields_from, embedding_fields_from, length_map,
    length_enumerate_from, <- Hlen.
  repeat split; auto.
Qed.

(** C2. If the upstream call for the batch starting at global index
    i = 10 k returns a status other than 200, then that call is the last
    one issued, and the response is HTTP 500 with the single key [error],
    hence no [data] field and no embedding, whose message contains the
    index i, the upstream status code and the raw upstream body. *)
Theorem fail_fast_on_status rq w texts k c resp :
  texts_of rq = Ok texts ->
  nth_error (calls rq w) k = Some c ->
  outcome c = Ok resp ->
  status_code resp <> 200%Z ->
  let i := MAX_BATCH_SIZE * k in
  let message := batch_error_message i resp in
  payload c = py_slice texts i (i + MAX_BATCH_SIZE)
  /\ length (calls rq w) = S k
  /\ response rq w = jsonify_with (error_body message) 500
  /\ http_status (response rq w) = 500%Z
  /\ http_body (response rq w) = VDict [(lit "error", VStr message)]
  /\ field "data" (http_body (response rq w)) = None
  /\ contains message (str_int (Z.of_nat i))
  /\ contains message (str_int (status_code resp))
  /\ contains message (text resp).
Proof.
  intros Ht Hk Ho Hs i message.
  split; [exact (payload_of_call rq w k Ht Hk)|].
  pose proof (not_accepted_of_status c Ho Hs) as Hn.
  destruct (handler_ending rq w Ht) as [_ He].
  assert (Hlast : length (calls rq w) = S k
                  /\ response rq w = jsonify_with (error_body message) 500).
  { destruct He as [HF _ _|cs0 c' resp' Hcs HF Ho' Hs' Hr|cs0 c' e Hcs HF Hn' Ho' Hr].
    - apply nth_error_In in Hk. rewrite Forall_forall in HF.
      apply HF in Hk. contradiction.
    - rewrite Hcs in Hk. destruct (unaccepted_is_last _ _ HF Hk Hn) as [-> <-].
      rewrite Hcs, length_app, Nat.add_comm. split; [reflexivity|].
      rewrite Ho in Ho'. injection Ho' as <-. exact Hr.
    - rewrite Hcs in Hk. destruct (unaccepted_is_last _ _ HF Hk Hn) as [-> <-].
      exfalso. destruct Ho' as [Ho'|(resp' & Ho' & Hs' & _)];
        rewrite Ho in Ho'; [discriminate|].
      injection Ho' as <-. contradiction. }
  destruct Hlast as [Hl Hr]. rewrite Hr.
  repeat split; auto.
  - unfold message, batch_error_message. apply contains_intro.
  - unfold message, batch_error_message.
    rewrite (app_assoc _ (str_int (Z.of_nat i))), (app_assoc _ (lit "): ")).
    apply contains_intro.
  - unfold message, batch_error_message.
    exists (lit "Error from OVH API (batch starting at index "
            ++ str_int (Z.of_nat i) ++ lit "): "
            ++ str_int (status_code resp) ++ lit ", response: "), [].
    rewrite app_nil_r, <- !app_assoc. reflexivity.
Qed.

(** C3. For every n, the normalized input sequence of length n is cut
    into ceil(n / 10) batches, each of at most 10 items, whose sizes sum
    to n; batch k holds the items at indices 10 k up to
    min (10 k + 10, n), in their order; the calls issued carry the
    batches in increasing order of k, one call per batch: all of them
    when the request succeeds, and those up to the first failing one
    otherwise.  The calls are calls of the upstream: posting the batches
    issued, one after the other, gives the outcomes the handler saw and
    the world it leaves. *)
Theorem batching_partition rq w texts :
  texts_of rq = Ok texts ->
  let n := length texts in
  let bs := batches texts in
  length bs = (n + 9) / 10
  /\ n <= 10 * length bs < n + 10
  /\ Forall (fun b => length b <= 10) bs
  /\ py_sum (map (@length _) bs) = n
  /\ concat bs = texts
  /\ (forall k, k < length bs ->
        length (nth k bs []) = Nat.min (10 * k + 10) n - 10 * k
        /\ forall j d, j < length (nth k bs []) ->
             nth j (nth k bs []) d = nth (10 * k + j) texts d)
  /\ map (@payload float) (calls rq w) = firstn (length (calls rq w)) bs
  /\ (http_status (response rq w) = 200%Z ->
        map (@payload float) (calls rq w) = bs)
  /\ (Forall was_accepted (calls rq w) ->
        map (@payload float) (calls rq w) = bs)
  /\ post_all post (map (@payload float) (calls rq w)) w
     = (map (@outcome float) (calls rq w), snd (handler rq w))
  /\ (http_status (response rq w) = 200%Z ->
        length (calls rq w) = length bs
        /\ post_all post bs w
           = (map (@outcome float) (calls rq w), snd (handler rq w))).
Proof.
  intros Ht n bs.
  destruct (handler_ending rq w Ht) as [Hp He].
  pose proof (ceil_div_10 n) as Hc. cbv zeta in Hc.
  pose proof (length_batches texts) as Hl. fold n bs in Hl.
  unfold MAX_BATCH_SIZE in Hc, Hl.
  replace (n - 0 + 10 - 1) with (n + 9) in * by lia.
  assert (Hnth : forall k, k < length bs ->
            nth k bs [] = py_slice texts (10 * k) (10 * k + MAX_BATCH_SIZE)).
  { intros k Hk. unfold bs, batches.
    rewrite (nth_indep _ [] (py_slice texts 0 (0 + MAX_BATCH_SIZE)))
      by (fold (batches texts); exact Hk).
    rewrite (map_nth (fun i => py_slice texts i (i + MAX_BATCH_SIZE))).
    unfold py_range. rewrite nth_range_count.
    - unfold MAX_BATCH_SIZE. f_equal; lia.
    - unfold MAX_BATCH_SIZE. fold n.
      replace (n - 0 + 10 - 1) with (n + 9) by lia.
      rewrite <- Hl. exact Hk. }
  split; [exact Hl|]. split; [rewrite Hl; exact Hc|].
  split.
  { unfold bs, batches. apply Forall_map, Forall_forall. intros i _.
    rewrite length_py_slice. unfold MAX_BATCH_SIZE. lia. }
  split.
  { unfold bs, n. rewrite py_sum_lengths, concat_batches. reflexivity. }
  split; [apply concat_batches|].
  split.
  { intros k Hk. rewrite (Hnth k Hk). split.
    - rewrite length_py_slice. unfold MAX_BATCH_SIZE. reflexivity.
    - intros j d Hj. apply nth_py_slice. exact Hj. }
  split; [exact Hp|].
  assert (H200 : http_status (response rq w) = 200%Z ->
                 map (@payload float) (calls rq w) = bs).
  { intros H200. apply (accepted_ending He). eapply status_of_ending; eauto. }
  split; [exact H200|].
  split; [intros HA; apply (accepted_ending He HA)|].
  split; [apply handler_replay|].
  intros Hs. pose proof (H200 Hs) as Hb. split.
  - rewrite <- Hb, length_map. reflexivity.
  - rewrite <- Hb. apply handler_replay.
Qed.

(** C4. In every success response [prompt_tokens] and [total_tokens] are
    both the sum, over the items of the normalized input sequence, of the
    number of white space separated tokens of the string form of the item;
    the two fields are equal; and an empty input array gives a success
    response in which both are 0. *)
Theorem usage_counts_tokens rq w :
  (http_status (response rq w) = 200%Z ->
   exists texts,
     texts_of rq = Ok texts
     /\ let tokens :=
          py_sum (map (fun t => length (py_split (py_str repr_float repr_str t)))
                      texts) in
        field "usage" (http_body (response rq w))
        = Some (VDict [(lit "prompt_tokens", VInt (Z.of_nat tokens));
                       (lit "total_tokens", VInt (Z.of_nat tokens))]))
  /\ (forall d,
        request_json rq = Ok (VDict d) ->
        dict_lookup (lit "input") d = Some (VList []) ->
        http_status (response rq w) = 200%Z
        /\ field "usage" (http_body (response rq w))
           = Some (VDict [(lit "prompt_tokens", VInt 0);
                          (lit "total_tokens", VInt 0)])).
Proof.
  split.
  - intros H200. destruct (texts_of_success rq w H200) as [texts Ht].
    exists texts. split; [exact Ht|].
    destruct (handler_ending rq w Ht) as [_ He].
    destruct (accepted_ending He (status_of_ending He H200)) as [_ ->].
    apply usage_of_success.
  - intros d Hj Hd.
    assert (Ht : texts_of rq = Ok []).
    { unfold texts_of. rewrite Hj. simpl. rewrite Hd. reflexivity. }
    unfold response_of. rewrite (handler_texts rq w Ht). simpl.
    split; reflexivity.
Qed.

(** C5. Normalization: an array under [input] is used as it is; any other
    value under [input] is wrapped into a one-element sequence; and when
    the key is absent the sequence is the single empty string, which is
    embedded by the upstream: exactly one call is made, it posts the
    batch holding that empty string, the world is the one that post
    leaves, and when the upstream accepts it the response is the success
    response for the one text. *)
Theorem normalization rq w d :
  request_json rq = Ok (VDict d) ->
  match dict_lookup (lit "input") d with
  | Some (VList l) => texts_of rq = Ok l
  | Some v => texts_of rq = Ok [v]
  | None =>
      texts_of rq = Ok [VStr (lit "")]
      /\ map (@payload float) (calls rq w) = [[VStr (lit "")]]
      /\ calls rq w
         = [{| payload := [VStr (lit "")];
               outcome := fst (post [VStr (lit "")] w) |}]
      /\ snd (handler rq w) = snd (post [VStr (lit "")] w)
      /\ (forall items,
            accepted (fst (post [VStr (lit "")] w)) = Some items ->
            response rq w = jsonify (success items [VStr (lit "")]))
  end.
Proof.
  intros Hj. unfold texts_of. rewrite Hj. simpl.
  destruct (dict_lookup (lit "input") d) as [v|] eqn:Hd.
  - destruct v; reflexivity.
  - split; [reflexivity|].
    assert (Ht : texts_of rq = Ok [VStr (lit "")]).
    { unfold texts_of. rewrite Hj. simpl. rewrite Hd. reflexivity. }
    assert (Hn : 0 < length [@VStr float (lit "")] <= MAX_BATCH_SIZE)
      by (unfold MAX_BATCH_SIZE; simpl; lia).
    pose proof (handler_single_batch rq w Ht Hn) as Hrun.
    unfold calls_of, response_of. rewrite Hrun. cbn [fst snd map payload].
    repeat split.
    intros items Ha. rewrite (decide_flow_accepted 0 [] _ Ha). reflexivity.
Qed.

(** C6, as the code has it.  A call that returned a response ends the
    loop with the error response of line 48 exactly when its status is
    not 200; a 2xx status other than 200 is such a failure; and for status
    200 the vectors of the array in the body are appended to the
    accumulator. *)
Theorem only_status_200_is_success texts i all_embeddings w resp :
  fst (post (py_slice texts i (i + MAX_BATCH_SIZE)) w) = Ok resp ->
  let f := fst (fst (loop_body post texts i all_embeddings w)) in
  ((exists r, f = Return r) <-> status_code resp <> 200%Z)
  /\ (status_code resp <> 200%Z ->
      f = Return (jsonify_with (error_body (batch_error_message i resp)) 500))
  /\ (status_code resp = 200%Z ->
      forall vectors, json resp = Ok (VList vectors) ->
      f = Continue (all_embeddings ++ vectors)).
Proof.
  intros Ho f. unfold f. rewrite loop_body_eq. cbn [fst]. rewrite Ho.
  unfold decide_flow.
  destruct (Z.eqb_spec (status_code resp) 200) as [E|E].
  - split; [|split; [contradiction|]].
    + split; [|contradiction].
      intros [r Hr]. destruct (bind _ _); discriminate.
    + intros _ vectors Hj. rewrite Hj. reflexivity.
  - split; [|split; [reflexivity|contradiction]].
    split; eauto.
Qed.

(** C7, as the code has it.  When the upstream call for the batch
    starting at index 10 k cannot be completed and raises [e], that call
    is the last one issued and the response is HTTP 500 with the single
    key [error] holding the description of [e], and nothing else. *)
Theorem transport_failure_aborts rq w texts k c e :
  texts_of rq = Ok texts ->
  nth_error (calls rq w) k = Some c ->
  outcome c = Raise e ->
  payload c
  = py_slice texts (MAX_BATCH_SIZE * k) (MAX_BATCH_SIZE * k + MAX_BATCH_SIZE)
  /\ length (calls rq w) = S k
  /\ response rq w = jsonify_with (error_body (str_exn e)) 500.
Proof.
  intros Ht Hk Ho.
  split; [exact (payload_of_call rq w k Ht Hk)|].
  pose proof (not_accepted_of_raise c Ho) as Hn.
  destruct (handler_ending rq w Ht) as [_ He].
  destruct He as [HF _ _|cs0 c' resp' Hcs HF Ho' Hs' Hr|cs0 c' e' Hcs HF Hn' Ho' Hr].
  - apply nth_error_In in Hk. rewrite Forall_forall in HF.
    apply HF in Hk. contradiction.
  - rewrite Hcs in Hk. destruct (unaccepted_is_last _ _ HF Hk Hn) as [-> <-].
    rewrite Ho in Ho'. discriminate.
  - rewrite Hcs in Hk. destruct (unaccepted_is_last _ _ HF Hk Hn) as [-> <-].
    rewrite Hcs, length_app, Nat.add_comm. split; [reflexivity|].
    destruct Ho' as [Ho'|(resp' & Ho' & _)]; rewrite Ho in Ho';
      [|discriminate].
    injection Ho' as ->. exact Hr.
Qed.



(** C9. In every success response the [index] fields of [data] are
    0, 1, ..., len(data) - 1 in increasing order, and [data] holds, in
    order, exactly the items the upstream returned over all calls, however
    many it returned for each batch: its length is the total number of
    returned items, with no reference to the number of texts submitted. *)
Theorem indices_follow_returned_vectors rq w :
  http_status (response rq w) = 200%Z ->
  let data := data_of (response rq w) in
  let returned := concat (map (@vectors_of float) (calls rq w)) in
  Forall (fun c => exists resp items,
            outcome c = Ok resp /\ status_code resp = 200%Z
            /\ bind (json resp) (@iter_items float) = Ok items
            /\ vectors_of c = items) (calls rq w)
  /\ length data
     = py_sum (map (fun c => length (vectors_of c)) (calls rq w))
  /\ map (field "index") data
     = map (fun k => Some (VInt (Z.of_nat k))) (seq 0 (length data))
  /\ map (field "embedding") data = map Some returned.
Proof.
  intros H200 data returned.
  destruct (texts_of_success rq w H200) as [texts Ht].
  destruct (handler_ending rq w Ht) as [_ He].
  pose proof (status_of_ending He H200) as HF.
  destruct (accepted_ending He HF) as [_ Hr].
  unfold data. rewrite Hr, data_of_success. fold returned.
  unfold embeddings_results, enumerate.
  rewrite index_fields_from, embedding_fields_from, length_map,
    length_enumerate_from.
  split; [|split; [|split; reflexivity]].
  - eapply Forall_impl; [|exact HF]. intros c Hc.
    unfold was_accepted, vectors_of, accepted in *.
    destruct (outcome c) as [resp|e]; [|contradiction].
    destruct (Z.eqb_spec (status_code resp) 200) as [E|E]; [|contradiction].
    destruct (bind _ _) as [items|e] eqn:Hb; [|contradiction].
    exists resp, items. auto.
  - unfold returned. rewrite <- py_sum_lengths, map_map. reflexivity.
Qed.

(** C10. An [input] value that is present and is not an array, be it a
    number, an object or null, is not rejected: it is wrapped as the one
    element of the sequence, exactly one upstream call is issued, with
    that value as the sole item of its batch, the request succeeds when
    that call is accepted, and the token counts of the success response
    are the number of white space separated tokens of the string form of
    the value. *)
Theorem non_text_input_is_wrapped rq w d v :
  request_json rq = Ok (VDict d) ->
  dict_lookup (lit "input") d = Some v ->
  (forall l, v <> VList l) ->
  let tokens := length (py_split (py_str repr_float repr_str v)) in
  texts_of rq = Ok [v]
  /\ calls rq w = [{| payload := [v]; outcome := fst (post [v] w) |}]
  /\ (forall items,
        accepted (fst (post [v] w)) = Some items ->
        response rq w = jsonify (success items [v]))
  /\ (http_status (response rq w) = 200%Z ->
      field "usage" (http_body (response rq w))
      = Some (VDict [(lit "prompt_tokens", VInt (Z.of_nat tokens));
                     (lit "total_tokens", VInt (Z.of_nat tokens))])).
Proof.
  intros Hj Hd Hv tokens.
  assert (Ht : texts_of rq = Ok [v]).
  { unfold texts_of. rewrite Hj. simpl. rewrite Hd.
    destruct v; try reflexivity. exfalso. eapply Hv. reflexivity. }
  assert (Hrun : handler rq w
                 = (match decide_flow 0 [] (fst (post [v] w)) with
                    | Continue acc => jsonify (success acc [v])
                    | Return r => r
                    | Throw e => jsonify_with (error_body (str_exn e)) 500
                    end,
                    [{| payload := [v]; outcome := fst (post [v] w) |}],
                    snd (post [v] w))).
  { rewrite (handler_texts rq w Ht).
    change (py_range 0 (length [v]) MAX_BATCH_SIZE) with [0].
    cbn [for_loop]. rewrite loop_body_eq.
    change (py_slice [v] 0 (0 + MAX_BATCH_SIZE)) with [v].
    destruct (decide_flow _ _ _); reflexivity. }
  split; [exact Ht|]. split; [unfold calls_of; rewrite Hrun; reflexivity|].
  split.
  - intros items Ha. unfold response_of. rewrite Hrun. cbn [fst].
    rewrite (decide_flow_accepted 0 [] _ Ha). reflexivity.
  - intros H200. destruct (handler_ending rq w Ht) as [_ He].
    destruct (accepted_ending He (status_of_ending He H200)) as [_ ->].
    rewrite usage_of_success. unfold token_count, tokens, py_sum. simpl.
    rewrite Nat.add_0_r. reflexivity.
Qed.

(** ** Further properties of the handler *)

Lemma handler_same_texts rq1 rq2 w :
  texts_of rq1 = texts_of rq2 -> handler rq1 w = handler rq2 w.
Proof.
  intros H. unfold get_embeddings, try_block. rewrite H. reflexivity.
Qed.

Lemma calls_within_batches rq w texts :
  texts_of rq = Ok texts ->
  length (calls rq w) <= (length texts + 9) / 10.
Proof.
  intros Ht. destruct (handler_ending rq w Ht) as [Hp _].
  pose proof (length_batches texts) as Hl. unfold MAX_BATCH_SIZE in Hl.
  replace (length texts - 0 + 10 - 1) with (length texts + 9) in Hl by lia.
  rewrite <- Hl, <- (length_map (@payload float) (calls rq w)), Hp,
    length_firstn. lia.
Qed.

Lemma objects_of_embeddings_results all_embeddings :
  Forall (fun entry =>
            keys_of entry = [lit "embedding"; lit "index"; lit "object"]
            /\ field "object" entry = Some (VStr (lit "embedding")))
         (embeddings_results all_embeddings).
Proof.
  unfold embeddings_results, enumerate. generalize 0.
  induction all_embeddings as [|x l IH]; intros k; simpl; constructor.
  - split; reflexivity.
  - apply IH.
Qed.

(** X1. A request whose body cannot be read as JSON, or is JSON but not
    an object, is answered with HTTP 500 and the description of the
    exception, without any upstream call and without touching the
    world. *)
Theorem malformed_request_issues_no_call rq w :
  (forall e,
     request_json rq = Raise e ->
     handler rq w = (jsonify_with (error_body (str_exn e)) 500, [], w))
  /\ (forall data,
        request_json rq = Ok data ->
        (forall d, data <> VDict d) ->
        handler rq w
        = (jsonify_with
             (error_body
                (lit "'" ++ type_name data
                 ++ lit "' object has no attribute 'get'")) 500,
           [], w)).
Proof.
  split.
  - intros e Hj. apply handler_no_texts. unfold texts_of. rewrite Hj.
    reflexivity.
  - intros data Hj Hd.
    rewrite (@handler_no_texts rq w
               (Exn (lit "'" ++ type_name data
                     ++ lit "' object has no attribute 'get'")));
      [reflexivity|].
    unfold texts_of. rewrite Hj. simpl.
    destruct data; try reflexivity. exfalso. eapply Hd. reflexivity.
Qed.

(** X2. The calls of a request are strictly sequential and never
    repeated: replaying the payloads of the calls issued, each on the
    world left by the previous one, gives exactly the outcomes recorded
    and the world the handler returns, also when the request fails. *)
Theorem calls_are_sequential rq w :
  post_all post (map (@payload float) (calls rq w)) w
  = (map (@outcome float) (calls rq w), snd (handler rq w)).
Proof.
  unfold calls_of. destruct (texts_of rq) as [texts|e] eqn:Ht.
  - rewrite (handler_texts rq w Ht).
    destruct (for_loop _ _ _ _ _) as [[f cs] w'] eqn:L.
    pose proof (for_loop_replay _ _ _ _ L) as H.
    destruct f; exact H.
  - rewrite (handler_no_texts rq w Ht). reflexivity.
Qed.

(** X3. The upstream is never sent an empty batch nor one of more than
    ten items: call number k carries min (10, n - 10 k) items, which is
    at least one, and exactly ten whenever ten texts are left. *)
Theorem batch_sizes_within_limit rq w texts k c :
  texts_of rq = Ok texts ->
  nth_error (calls rq w) k = Some c ->
  10 * k < length texts
  /\ length (payload c) = Nat.min 10 (length texts - 10 * k)
  /\ 1 <= length (payload c) <= 10
  /\ (10 * k + 10 <= length texts -> length (payload c) = 10).
Proof.
  intros Ht Hk.
  pose proof (payload_of_call rq w k Ht Hk) as Hp.
  pose proof (calls_within_batches rq w Ht) as Hb.
  assert (Hlt : k < length (calls rq w)) by (apply nth_error_Some; congruence).
  pose proof (Nat.div_mod_eq (length texts + 9) 10) as E.
  pose proof (Nat.mod_upper_bound (length texts + 9) 10) as B.
  assert (Hin : 10 * k < length texts) by lia.
  rewrite Hp, length_py_slice. unfold MAX_BATCH_SIZE. lia.
Qed.

(** X4. A request with texts issues no call exactly when there is no
    text; and then it succeeds with an empty [data] array and leaves the
    world as it was. *)
Theorem no_call_iff_no_text rq w texts :
  texts_of rq = Ok texts ->
  (calls rq w = [] <-> texts = [])
  /\ (texts = [] -> handler rq w = (jsonify (success [] []), [], w)).
Proof.
  intros Ht.
  assert (He : texts = [] -> handler rq w = (jsonify (success [] []), [], w)).
  { intros ->. rewrite (handler_texts rq w Ht). reflexivity. }
  split; [|exact He]. split.
  - intros Hc. destruct (handler_ending rq w Ht) as [_ Hend].
    rewrite Hc in Hend.
    destruct Hend as [_ Hp _|cs0 c resp Hcs _ _ _ _|cs0 c e Hcs _ _ _ _].
    + simpl in Hp. symmetry in Hp.
      rewrite <- (concat_batches texts), Hp. reflexivity.
    + destruct cs0; discriminate.
    + destruct cs0; discriminate.
  - intros Hn. unfold calls_of. rewrite (He Hn). reflexivity.
Qed.

(** X5. A single value under [input] and the one-element array holding
    it are handled identically, and so are an absent [input] and the
    empty string; the other keys of the body play no part. *)
Theorem single_value_and_singleton_agree rq1 rq2 w d1 d2 :
  request_json rq1 = Ok (VDict d1) ->
  request_json rq2 = Ok (VDict d2) ->
  match dict_lookup (lit "input") d1 with
  | Some (VList _) => False
  | Some v => dict_lookup (lit "input") d2 = Some (VList [v])
  | None => dict_lookup (lit "input") d2 = Some (VStr (lit ""))
  end ->
  handler rq1 w = handler rq2 w.
Proof.
  intros H1 H2 Hd. apply handler_same_texts.
  unfold texts_of. rewrite H1, H2. simpl.
  destruct (dict_lookup (lit "input") d1) as [v|].
  - destruct v; try contradiction; rewrite Hd; reflexivity.
  - rewrite Hd. reflexivity.
Qed.

(** X6. Every response has status 200 or 500.  With 200 the body has the
    keys data, model, object and usage, in this order, with the fixed
    model and object tags, and every entry of [data] has the keys
    embedding, index and object with the fixed tag; with 500 the body has
    the key error alone, holding a string. *)
Theorem response_shape rq w :
  let r := response rq w in
  (http_status r = 200%Z
   /\ keys_of (http_body r)
      = [lit "data"; lit "model"; lit "object"; lit "usage"]
   /\ field "model" (http_body r) = Some (VStr (lit "ovh-embeddings"))
   /\ field "object" (http_body r) = Some (VStr (lit "list"))
   /\ Forall (fun entry =>
                keys_of entry = [lit "embedding"; lit "index"; lit "object"]
                /\ field "object" entry = Some (VStr (lit "embedding")))
             (data_of r))
  \/ (http_status r = 500%Z
      /\ keys_of (http_body r) = [lit "error"]
      /\ exists message, field "error" (http_body r) = Some (VStr message)).
Proof.
  intros r. subst r.
  destruct (texts_of rq) as [texts|e] eqn:Ht.
  - destruct (handler_ending rq w Ht)
      as [_ [_ _ ->|? ? ? _ _ _ _ ->|? ? ? _ _ _ _ ->]].
    + left. rewrite data_of_success.
      repeat split; try reflexivity. apply objects_of_embeddings_results.
    + right. split; [reflexivity|]. split; [reflexivity|].
      eexists. reflexivity.
    + right. split; [reflexivity|]. split; [reflexivity|].
      eexists. reflexivity.
  - right. unfold response_of. rewrite (handler_no_texts rq w Ht).
    split; [reflexivity|]. split; [reflexivity|]. eexists. reflexivity.
Qed.

(** X7. A 200 answer whose body is JSON but is null, a boolean or a
    number cannot extend the accumulator: the request stops at that call
    and is answered with HTTP 500 and the message of the type error. *)
Theorem non_iterable_body_aborts rq w texts k c resp v :
  texts_of rq = Ok texts ->
  nth_error (calls rq w) k = Some c ->
  outcome c = Ok resp ->
  status_code resp = 200%Z ->
  json resp = Ok v ->
  match v with VList _ | VDict _ | VStr _ => False | _ => True end ->
  length (calls rq w) = S k
  /\ response rq w
     = jsonify_with
         (error_body (lit "'" ++ type_name v ++ lit "' object is not iterable"))
         500.
Proof.
  intros Ht Hk Ho Hs Hj Hv.
  assert (Hb : bind (json resp) (@iter_items float)
               = Raise (Exn (lit "'" ++ type_name v
                             ++ lit "' object is not iterable"))).
  { rewrite Hj. destruct v; try contradiction; reflexivity. }
  assert (Hn : accepted (outcome c) = None).
  { unfold accepted. rewrite Ho, Hs, Hb. reflexivity. }
  destruct (handler_ending rq w Ht) as [_ He].
  destruct He as [HF _ _|cs0 c' resp' Hcs HF Ho' Hs' Hr|cs0 c' e Hcs HF Hn' Ho' Hr].
  - apply nth_error_In in Hk. rewrite Forall_forall in HF.
    apply HF in Hk. contradiction.
  - rewrite Hcs in Hk. destruct (unaccepted_is_last _ _ HF Hk Hn) as [-> <-].
    rewrite Ho in Ho'. injection Ho' as <-. contradiction.
  - rewrite Hcs in Hk. destruct (unaccepted_is_last _ _ HF Hk Hn) as [-> <-].
    rewrite Hcs, length_app, Nat.add_comm. split; [reflexivity|].
    destruct Ho' as [Ho'|(resp' & Ho' & _ & Hb')]; rewrite Ho in Ho';
      [discriminate|].
    injection Ho' as <-. rewrite Hb in Hb'. injection Hb' as <-. exact Hr.
Qed.

(** X8. The shape of a 200 body is not checked.  For a request of at
    most ten texts, a body that is a JSON object makes the request
    succeed with one entry per key, the key standing for the embedding,
    and a body that is a JSON string makes it succeed with one entry per
    character. *)
Theorem object_and_string_bodies_are_accepted rq w texts resp :
  texts_of rq = Ok texts ->
  0 < length texts <= MAX_BATCH_SIZE ->
  fst (post texts w) = Ok resp ->
  status_code resp = 200%Z ->
  (forall d,
     json resp = Ok (VDict d) ->
     response rq w
     = jsonify (success (map (fun kv => VStr (fst kv)) d) texts))
  /\ (forall s,
        json resp = Ok (VStr s) ->
        response rq w = jsonify (success (map (fun ch => VStr [ch]) s) texts)).
Proof.
  intros Ht Hn Ho Hs. unfold response_of.
  rewrite (handler_single_batch rq w Ht Hn). cbn [fst].
  split; intros x Hj;
    (erewrite decide_flow_accepted;
     [reflexivity|unfold accepted; rewrite Ho, Hs, Hj; reflexivity]).
Qed.

End Properties.

(** * The claims on the samples *)

(** C1 on 25 texts and the echoing provider: three batches, 25 entries
    indexed 0..24, each carrying the vector of its text. *)
Lemma order_preserved_on_25_texts :
  let rq := request_with_input (VList (numbered_texts 25)) in
  exists vectors,
    Forall2 vector_of_text (numbered_texts 25) vectors
    /\ sample_handler post_echo rq
       = jsonify (success_body sample_repr_float sample_repr_str vectors
                    (numbered_texts 25))
    /\ http_status (sample_handler post_echo rq) = 200%Z
    /\ length (data_of (sample_handler post_echo rq))
       = length (numbered_texts 25)
    /\ map (field "index") (data_of (sample_handler post_echo rq))
       = map (fun k => Some (VInt (Z.of_nat k)))
             (seq 0 (length (numbered_texts 25)))
    /\ map (field "embedding") (data_of (sample_handler post_echo rq))
       = map Some vectors.
Proof.
  intros rq.
  apply (order_preserved_across_batches sample_repr_float sample_repr_str
           post_echo (R := vector_of_text) rq 0 (texts := numbered_texts 25)).
  - reflexivity.
  - vm_compute. repeat econstructor.
Defined.

(** C2 on 25 texts when the second call answers 503. *)
Lemma fail_fast_on_second_of_three :
  let rq := request_with_input (VList (numbered_texts 25)) in
  let r := sample_handler (post_busy_at 1) rq in
  let message := batch_error_message 10 busy_response in
  length (sample_calls (post_busy_at 1) rq) = 2
  /\ r = jsonify_with (error_body message) 500
  /\ field "data" (http_body r) = None
  /\ contains message (str_int 10)
  /\ contains message (str_int 503)
  /\ contains message (lit "busy").
Proof.
  intros rq r message.
  destruct (fail_fast_on_status sample_repr_float sample_repr_str
              (post_busy_at 1) rq 0 (texts := numbered_texts 25) 1
              (c := {| payload := py_slice (numbered_texts 25) 10 20;
                       outcome := Ok busy_response |})
              (resp := busy_response))
    as (_ & Hl & Hr & _ & _ & Hd & Hi & Hs & Ht).
  - reflexivity.
  - vm_compute. reflexivity.
  - reflexivity.
  - vm_compute. discriminate.
  - repeat split; assumption.
Defined.

(** C3 on 25 texts: batches of 10, 10 and 5, each posted once and in
    order to the echoing provider, which has then served three calls. *)
Lemma batching_of_25_texts :
  let rq := request_with_input (VList (numbered_texts 25)) in
  length (batches (numbered_texts 25)) = 3
  /\ map (@length _) (batches (numbered_texts 25)) = [10; 10; 5]
  /\ map (@payload Z) (sample_calls post_echo rq) = batches (numbered_texts 25)
  /\ map (@outcome Z) (sample_calls post_echo rq)
     = map (fun b => Ok (vectors_response 200 b)) (batches (numbered_texts 25))
  /\ snd (get_embeddings sample_repr_float sample_repr_str post_echo rq 0) = 3.
Proof.
  intros rq.
  destruct (batching_partition sample_repr_float sample_repr_str post_echo
              rq 0 (texts := numbered_texts 25))
    as (Hl & _ & _ & _ & _ & _ & _ & H200 & _ & _ & Hall).
  - reflexivity.
  - assert (Hs : http_status
                   (response_of sample_repr_float sample_repr_str post_echo
                      rq 0) = 200%Z) by (vm_compute; reflexivity).
    destruct (Hall Hs) as [_ Hpost].
    assert (E : post_all post_echo (batches (numbered_texts 25)) 0
                = (map (fun b => Ok (vectors_response 200 b))
                       (batches (numbered_texts 25)), 3))
      by (vm_compute; reflexivity).
    rewrite E in Hpost.
    split; [exact Hl|]. split; [vm_compute; reflexivity|].
    split; [exact (H200 Hs)|].
    split; [symmetry; exact (f_equal fst Hpost)
           |symmetry; exact (f_equal snd Hpost)].
Defined.

(** C4 on the input ["a b", "c"]: 2 + 1 tokens. *)
Lemma usage_of_a_b_c :
  let rq := request_with_input (VList [VStr (lit "a b"); VStr (lit "c")]) in
  field "usage" (http_body (sample_handler post_echo rq))
  = Some (VDict [(lit "prompt_tokens", VInt 3); (lit "total_tokens", VInt 3)]).
Proof.
  intros rq.
  destruct (proj1 (usage_counts_tokens sample_repr_float sample_repr_str
                     post_echo rq 0))
    as (texts & Ht & Hu).
  - vm_compute. reflexivity.
  - injection Ht as <-. exact Hu.
Defined.

(** C5 on a body without [input]: one call, which posts the empty
    string to the echoing provider, and one entry, its vector. *)
Lemma normalization_of_missing_input :
  let rq := {| request_json := Ok (VDict [(lit "model", VStr (lit "m"))]) |} in
  texts_of rq = Ok [VStr (lit "")]
  /\ sample_calls post_echo rq
     = [{| payload := [VStr (lit "")];
           outcome := Ok (vectors_response 200 [VStr (lit "")]) |}]
  /\ snd (get_embeddings sample_repr_float sample_repr_str post_echo rq 0) = 1
  /\ sample_handler post_echo rq
     = jsonify (success_body sample_repr_float sample_repr_str
                  [sample_vector (VStr (lit ""))] [VStr (lit "")]).
Proof.
  intros rq.
  destruct (normalization sample_repr_float sample_repr_str post_echo rq 0
              (d := [(lit "model", VStr (lit "m"))]) eq_refl)
    as (Ht & _ & Hc & Hw & Hr).
  split; [exact Ht|]. split; [exact Hc|]. split; [exact Hw|].
  apply Hr. reflexivity.
Defined.

Lemma contains_elements (s sub : pystr) (c : N) :
  contains s sub -> In c sub -> In c s.
Proof.
  intros (pre & suf & ->) Hc. apply in_or_app. right.
  apply in_or_app. left. exact Hc.
Qed.

(** C6 as the claim has it fails on a 201 answer: the status is 2xx and
    the body holds the right vector, yet the iteration ends with the
    error response and nothing is appended. *)
Lemma created_status_is_rejected :
  let hello := VStr (lit "hello world") in
  let resp := vectors_response 201 [hello] in
  let f := fst (fst (loop_body post_created [hello] 0 [] 0)) in
  fst (post_created (py_slice [hello] 0 (0 + MAX_BATCH_SIZE)) 0) = Ok resp
  /\ (200 <= status_code resp < 300)%Z
  /\ json resp = Ok (VList [sample_vector hello])
  /\ f <> Continue ([] ++ [sample_vector hello])
  /\ f = Return (jsonify_with
                   (error_body
                      (lit "Error from OVH API (batch starting at index 0): 201, response: [...]"))
                   500)
  /\ http_status (sample_handler post_created (request_with_input hello))
     = 500%Z.
Proof.
  vm_compute. repeat split; try reflexivity; try discriminate.
Qed.

(** C6, amended, on the same 201 answer. *)
Lemma created_status_ends_the_loop :
  let hello := VStr (lit "hello world") in
  fst (fst (loop_body post_created [hello] 0 [] 0))
  = Return (jsonify_with
              (error_body
                 (batch_error_message 0 (vectors_response 201 [hello])))
              500).
Proof.
  intros hello.
  destruct (only_status_200_is_success post_created [hello] 0 [] 0
              (resp := vectors_response 201 [hello]))
    as (_ & Hr & _).
  - reflexivity.
  - apply Hr. vm_compute. discriminate.
Defined.

(** C7 as the claim has it fails when the second call of 11 texts cannot
    be completed: the message is the description of the exception, in
    which the starting index 10 does not occur, and it is the very
    response of a failure of the first call. *)
Lemma transport_failure_names_no_batch :
  let rq := request_with_input (VList (numbered_texts 11)) in
  let r := sample_handler (post_unreachable_at 1) rq in
  nth_error (sample_calls (post_unreachable_at 1) rq) 1
  = Some {| payload := [VStr (lit "10")];
            outcome := Raise (Exn (lit "Connection refused")) |}
  /\ r = jsonify_with (error_body (lit "Connection refused")) 500
  /\ ~ contains (lit "Connection refused") (str_int 10)
  /\ r = sample_handler (post_unreachable_at 0) rq.
Proof.
  repeat split; try (vm_compute; reflexivity).
  intros H. apply (@contains_elements _ _ 49%N) in H.
  - vm_compute in H. intuition discriminate.
  - vm_compute. auto.
Qed.

(** C7, amended, on the same request. *)
Lemma transport_failure_on_second_call :
  let rq := request_with_input (VList (numbered_texts 11)) in
  length (sample_calls (post_unreachable_at 1) rq) = 2
  /\ sample_handler (post_unreachable_at 1) rq
     = jsonify_with (error_body (lit "Connection refused")) 500.
Proof.
  intros rq.
  destruct (transport_failure_aborts sample_repr_float sample_repr_str
              (post_unreachable_at 1) rq 0 (texts := numbered_texts 11) 1
              (c := {| payload := [VStr (lit "10")];
                       outcome := Raise (Exn (lit "Connection refused")) |})
              (e := Exn (lit "Connection refused")))
    as (_ & Hl & Hr).
  - reflexivity.
  - vm_compute. reflexivity.
  - reflexivity.
  - split; [exact Hl|exact Hr].
Defined.


(** C9 when the upstream returns two vectors for one text: the request
    succeeds with two entries, indexed 0 and 1. *)
Lemma two_vectors_for_one_text :
  let r := sample_handler post_two_vectors
             (request_with_input (VStr (lit "hello world"))) in
  length (data_of r) = 2
  /\ map (field "index") (data_of r) = [Some (VInt 0); Some (VInt 1)]
  /\ map (field "embedding") (data_of r)
     = [Some (VList [VFloat 1%Z]); Some (VList [VFloat 2%Z])].
Proof.
  intros r.
  destruct (indices_follow_returned_vectors sample_repr_float sample_repr_str
              post_two_vectors
              (request_with_input (VStr (lit "hello world"))) 0)
    as (_ & Hl & Hi & He).
  - vm_compute. reflexivity.
  - subst r. unfold sample_handler. cbv zeta in Hl, Hi, He.
    rewrite Hi, He, Hl. vm_compute. repeat split.
Defined.

(** C10 on the inputs 42 and null: one call with the value as it is, and
    one token, "42" and "None". *)
Lemma number_and_null_are_wrapped :
  sample_calls post_echo (request_with_input (VInt 42))
  = [{| payload := [VInt 42];
        outcome := Ok (vectors_response 200 [VInt 42]) |}]
  /\ field "usage"
       (http_body (sample_handler post_echo (request_with_input (VInt 42))))
     = Some (VDict [(lit "prompt_tokens", VInt 1); (lit "total_tokens", VInt 1)])
  /\ sample_calls post_echo (request_with_input VNone)
     = [{| payload := [VNone];
           outcome := Ok (vectors_response 200 [VNone]) |}]
  /\ field "usage"
       (http_body (sample_handler post_echo (request_with_input VNone)))
     = Some (VDict [(lit "prompt_tokens", VInt 1); (lit "total_tokens", VInt 1)]).
Proof.
  destruct (non_text_input_is_wrapped sample_repr_float sample_repr_str
              post_echo (request_with_input (VInt 42)) 0
              (d := [(lit "input", VInt 42)]) (v := VInt 42))
    as (_ & Hc & _ & Hu); [reflexivity|reflexivity|discriminate|].
  destruct (non_text_input_is_wrapped sample_repr_float sample_repr_str
              post_echo (request_with_input VNone) 0
              (d := [(lit "input", VNone)]) (v := VNone))
    as (_ & Hc' & _ & Hu'); [reflexivity|reflexivity|discriminate|].
  split; [exact Hc|]. split; [apply Hu; vm_compute; reflexivity|].
  split; [exact Hc'|]. apply Hu'. vm_compute. reflexivity.
Defined.

(** * The further properties on the samples *)

(** X1 on a body that is the JSON number 7. *)
Lemma number_body_issues_no_call :
  get_embeddings sample_repr_float sample_repr_str post_echo
    {| request_json := Ok (VInt 7) |} 0
  = (jsonify_with (error_body (lit "'int' object has no attribute 'get'")) 500,
     [], 0).
Proof.
  apply (proj2 (malformed_request_issues_no_call sample_repr_float
                  sample_repr_str post_echo
                  {| request_json := Ok (VInt 7) |} 0) (VInt 7)).
  - reflexivity.
  - discriminate.
Defined.

(** X3 on the third call of 25 texts: five items. *)
Lemma third_batch_of_25_has_five :
  let last := py_slice (numbered_texts 25) 20 30 in
  let c := {| payload := last; outcome := Ok (vectors_response 200 last) |} in
  length (payload c) = Nat.min 10 (length (numbered_texts 25) - 10 * 2)
  /\ 1 <= length (payload c) <= 10.
Proof.
  intros last c.
  destruct (batch_sizes_within_limit sample_repr_float sample_repr_str
              post_echo (request_with_input (VList (numbered_texts 25))) 0
              (texts := numbered_texts 25) 2 (c := c))
    as (_ & Hl & Hb & _).
  - reflexivity.
  - vm_compute. reflexivity.
  - split; assumption.
Defined.

(** X4 on the empty array. *)
Lemma empty_array_issues_no_call :
  get_embeddings sample_repr_float sample_repr_str post_echo
    (request_with_input (VList [])) 0
  = (jsonify (success_body sample_repr_float sample_repr_str [] []), [], 0).
Proof.
  apply (proj2 (no_call_iff_no_text sample_repr_float sample_repr_str
                  post_echo (request_with_input (VList [])) 0
                  (texts := []) eq_refl)).
  reflexivity.
Defined.

(** X5 on "hello world" and ["hello world"]. *)
Lemma hello_and_singleton_agree :
  let hello := VStr (lit "hello world") in
  get_embeddings sample_repr_float sample_repr_str post_echo
    (request_with_input hello) 0
  = get_embeddings sample_repr_float sample_repr_str post_echo
      (request_with_input (VList [hello])) 0.
Proof.
  intros hello.
  apply (single_value_and_singleton_agree sample_repr_float sample_repr_str
           post_echo (request_with_input hello)
           (request_with_input (VList [hello])) 0
           (d1 := [(lit "input", hello)])
           (d2 := [(lit "input", VList [hello])])).
  - reflexivity.
  - reflexivity.
  - reflexivity.
Defined.

(** X7 on a 200 answer whose body is null. *)
Lemma null_body_aborts :
  let rq := request_with_input (VStr (lit "hello world")) in
  length (sample_calls (post_body VNone) rq) = 1
  /\ sample_handler (post_body VNone) rq
     = jsonify_with
         (error_body (lit "'NoneType' object is not iterable")) 500.
Proof.
  intros rq.
  apply (non_iterable_body_aborts sample_repr_float sample_repr_str
           (post_body VNone) rq 0 (texts := [VStr (lit "hello world")]) 0
           (c := {| payload := [VStr (lit "hello world")];
                    outcome := fst (post_body VNone [VStr (lit "hello world")] 0) |})
           (resp := {| status_code := 200; text := lit "...";
                       json := Ok VNone |})
           (v := VNone)).
  - reflexivity.
  - reflexivity.
  - reflexivity.
  - reflexivity.
  - reflexivity.
  - exact I.
Defined.

(** X8 on a 200 answer whose body is the object {"detail": "x"}. *)
Lemma object_body_gives_its_keys :
  let rq := request_with_input (VStr (lit "hello world")) in
  let body := VDict [(lit "detail", VStr (lit "x"))] in
  http_status (sample_handler (post_body body) rq) = 200%Z
  /\ map (field "embedding") (data_of (sample_handler (post_body body) rq))
     = [Some (VStr (lit "detail"))].
Proof.
  intros rq body.
  destruct (object_and_string_bodies_are_accepted sample_repr_float
              sample_repr_str (post_body body) rq 0
              (texts := [VStr (lit "hello world")])
              (resp := {| status_code := 200; text := lit "...";
                          json := Ok body |}))
    as [Hd _].
  - reflexivity.
  - unfold MAX_BATCH_SIZE. simpl. lia.
  - reflexivity.
  - reflexivity.
  - unfold sample_handler.
    rewrite (Hd [(lit "detail", VStr (lit "x"))] eq_refl).
    split; reflexivity.
Defined.
